(** * docx-revisions: track changes on a paragraph

    A shallow embedding of [docx_revisions/revisions.py] and
    [docx_revisions/models.py].  A paragraph is the lxml element
    [paragraph._element]; its children are the runs ([w:r]), the tracked
    insertions ([w:ins]) and the tracked deletions ([w:del]) that the
    functions of the module read and rewrite.  Offsets are Python integers
    (here [Z]), texts are Python strings (here [string], one [ascii] standing
    for one character). *)

From Stdlib Require Import ZArith List String Ascii Bool Lia.
Import ListNotations.

Local Open Scope string_scope.
Local Open Scope Z_scope.

(** ** Python strings *)

Module PyStr.

(** [len(s)] *)
Definition len (s : string) : Z := Z.of_nat (String.length s).

(** The truth value of a string: [if s:] holds unless [s] is empty. *)
Definition truthy (s : string) : bool :=
  match s with
  | EmptyString => false
  | String _ _ => true
  end.

(** The first [n] characters, and what is left without them. *)
Fixpoint take (n : nat) (s : string) : string :=
  match n, s with
  | O, _ => ""
  | S _, EmptyString => ""
  | S n', String c s' => String c (take n' s')
  end.

Fixpoint drop (n : nat) (s : string) : string :=
  match n, s with
  | O, _ => s
  | S _, EmptyString => ""
  | S n', String _ s' => drop n' s'
  end.

(** How a slice bound [i] is read on a string of length [n]: a negative
    bound counts from the end, and every bound is clamped to [0..n]. *)
Definition slice_index (n i : Z) : Z :=
  if i <? 0 then Z.max 0 (i + n) else Z.min i n.

(** [s[lo:hi]]; an omitted bound is [None]. *)
Definition slice (s : string) (lo hi : option Z) : string :=
  let n := len s in
  let a := match lo with Some i => slice_index n i | None => 0 end in
  let b := match hi with Some i => slice_index n i | None => n end in
  take (Z.to_nat (b - a)) (drop (Z.to_nat a) s).

(** [s[:i]] and [s[i:]] *)
Definition slice_to (s : string) (i : Z) : string := slice s None (Some i).
Definition slice_from (s : string) (i : Z) : string := slice s (Some i) None.

(** ["".join(parts)] *)
Definition join (parts : list string) : string := String.concat "" parts.

(** [s.find(sub)]: the lowest index at which [sub] starts in [s], or [-1]. *)
Fixpoint find_from (sub s : string) (i : Z) : Z :=
  if String.prefix sub s then i
  else match s with
       | EmptyString => -1
       | String _ s' => find_from sub s' (i + 1)
       end.

Definition find (s sub : string) : Z := find_from sub s 0.

(** [s.replace(old, new)] for a pattern [old] of one character. *)
Fixpoint replace_char (old : ascii) (new : string) (s : string) : string :=
  match s with
  | EmptyString => ""
  | String c s' =>
      if Ascii.eqb c old then new ++ replace_char old new s'
      else String c (replace_char old new s')
  end.

End PyStr.

(** ** lxml elements *)

Module Xml.

(** A qualified name [{namespace}localname]. *)
Record qname := QName { namespace : string; localname : string }.

Definition qname_eqb (a b : qname) : bool :=
  (localname a =? localname b)%string && (namespace a =? namespace b)%string.

Definition WORD_NS : string :=
  "http://schemas.openxmlformats.org/wordprocessingml/2006/main".
Definition XML_NS : string := "http://www.w3.org/XML/1998/namespace".

(** The namespace a prefix stands for. *)
Definition nsmap (pfx : string) : string :=
  if (pfx =? "w")%string then WORD_NS
  else if (pfx =? "xml")%string then XML_NS
  else "".

(** [qn("pfx:local")] *)
Definition qn (pfx local : string) : qname := QName (nsmap pfx) local.

(** An element: its tag, its attributes in document order, its text (the
    character data before its first child, [None] when there is none) and
    its children. *)
#[warnings="-register-all"]
Inductive element := Element {
  el_tag : qname;
  el_attrib : list (qname * string);
  el_text : option string;
  el_children : list element
}.

(** [OxmlElement("pfx:local")]: a new element without attribute or child. *)
Definition OxmlElement (pfx local : string) : element :=
  Element (qn pfx local) [] None [].

(** [element.get(key)] *)
Fixpoint assoc_get (key : qname) (l : list (qname * string)) : option string :=
  match l with
  | [] => None
  | (k, v) :: l' => if qname_eqb key k then Some v else assoc_get key l'
  end.

Definition get (e : element) (key : qname) : option string :=
  assoc_get key (el_attrib e).

(** [element.get(key, default)] *)
Definition get_default (e : element) (key : qname) (default : string) : string :=
  match get e key with
  | Some v => v
  | None => default
  end.

(** [element.set(key, value)]: an attribute that is there keeps its place,
    a new one goes last. *)
Fixpoint assoc_set (key : qname) (value : string) (l : list (qname * string))
  : list (qname * string) :=
  match l with
  | [] => [(key, value)]
  | (k, v) :: l' =>
      if qname_eqb key k then (k, value) :: l'
      else (k, v) :: assoc_set key value l'
  end.

Definition set (e : element) (key : qname) (value : string) : element :=
  Element (el_tag e) (assoc_set key value (el_attrib e)) (el_text e)
          (el_children e).

(** [element.text = s] *)
Definition set_text (e : element) (s : string) : element :=
  Element (el_tag e) (el_attrib e) (Some s) (el_children e).

(** [parent.append(child)] *)
Definition append (parent child : element) : element :=
  Element (el_tag parent) (el_attrib parent) (el_text parent)
          (el_children parent ++ [child]).

Definition with_children (parent : element) (cs : list element) : element :=
  Element (el_tag parent) (el_attrib parent) (el_text parent) cs.

(** [parent.insert(index, child)] on the list of children: an index past
    the end appends. *)
Definition list_insert (index : nat) (child : element) (cs : list element)
  : list element :=
  firstn index cs ++ child :: skipn index cs.

(** [parent.remove(child)] on the list of children, for the child that
    sits at [index] (elements are compared by identity, and an element
    has one place in its parent). *)
Definition list_remove (index : nat) (cs : list element) : list element :=
  firstn index cs ++ skipn (S index) cs.

(** The element and all its descendants, in document order. *)
Fixpoint subtree (e : element) : list element :=
  e :: flat_map subtree (el_children e).

(** [element.iter(tag)]: the elements of the subtree that carry [tag]. *)
Definition iter (e : element) (t : qname) : list element :=
  filter (fun x => qname_eqb (el_tag x) t) (subtree e).

(** [element.iterchildren()] and [list(element)] *)
Definition iterchildren (e : element) : list element := el_children e.

End Xml.

Import Xml.

(** ** models.py *)

(** The kind [_iter_paragraph_content] gives to a child: ["run"], ["ins"]
    or ["del"]. *)
Inductive tag_type := run | ins | del.

Record Revision (datetime : Type) := mkRevision {
  rev_type : tag_type;
  rev_text : string;
  rev_author : string;
  rev_date : option datetime
}.

Arguments mkRevision {datetime}.
Arguments rev_type {datetime}.
Arguments rev_text {datetime}.
Arguments rev_author {datetime}.
Arguments rev_date {datetime}.

(** ** The paragraph and the clock

    The functions that write take the paragraph by reference and change it in
    place; a default date is read from the clock.  The state they run in is
    the paragraph element together with the number of times the clock has
    been read. *)

Record world := World { paragraph_element : element; clock_reads : nat }.

Definition M (A : Type) : Type := world -> A * world.

Definition ret {A : Type} (a : A) : M A := fun w => (a, w).

Definition bind {A B : Type} (m : M A) (k : A -> M B) : M B :=
  fun w => let (a, w') := m w in k a w'.

Declare Scope revisions_scope.
Delimit Scope revisions_scope with rev.
Notation "x <- m ;; k" := (bind m (fun x => k))
  (at level 61, m at next level, right associativity) : revisions_scope.
Notation "m ;; k" := (bind m (fun _ => k))
  (at level 61, right associativity) : revisions_scope.

(** Reading and writing [paragraph._element]. *)
Definition read_paragraph : M element := fun w => (paragraph_element w, w).

Definition write_children (cs : list element) : M unit :=
  fun w => (tt, World (with_children (paragraph_element w) cs) (clock_reads w)).

(** The state an action leaves, and its paragraph. *)
Definition exec {A : Type} (m : M A) (w : world) : world := snd (m w).
Definition result {A : Type} (m : M A) (w : world) : A := fst (m w).

(** ** revisions.py *)

Section Revisions.

Local Open Scope list_scope.
Local Open Scope revisions_scope.

(** [datetime.datetime], with [date.isoformat()] and
    [datetime.fromisoformat(s)]; [None] stands for the [ValueError] raised
    on a string that is not in ISO format.  [wall_clock n] is what
    [datetime.now()] returns the [n]-th time it is called. *)
Variable datetime : Type.
Variable isoformat : datetime -> string.
Variable fromisoformat : string -> option datetime.
Variable wall_clock : nat -> datetime.

Definition datetime_now : M datetime :=
  fun w => (wall_clock (clock_reads w),
            World (paragraph_element w) (S (clock_reads w))).

(** [if date is None: date = datetime.now()] *)
Definition default_date (date : option datetime) : M datetime :=
  match date with
  | None => datetime_now
  | Some d => ret d
  end.

Fixpoint _iter_paragraph_content_of (children : list element)
  : list (tag_type * element) :=
  match children with
  | [] => []
  | element :: rest =>
      let tag := localname (el_tag element) in
      if (tag =? "r")%string then (run, element) :: _iter_paragraph_content_of rest
      else if (tag =? "ins")%string then (ins, element) :: _iter_paragraph_content_of rest
      else if (tag =? "del")%string then (del, element) :: _iter_paragraph_content_of rest
      else _iter_paragraph_content_of rest
  end.

Definition _iter_paragraph_content (paragraph : element)
  : list (tag_type * element) :=
  _iter_paragraph_content_of (iterchildren paragraph).

(** One [for] loop of [_extract_text_from_element]: the text of every
    element of [elems] that has one is appended to [texts]. *)
Definition append_texts (elems : list element) (texts : list string)
  : list string :=
  fold_left
    (fun texts t_elem =>
       match el_text t_elem with
       | Some s => if PyStr.truthy s then texts ++ [s] else texts
       | None => texts
       end)
    elems texts.

Definition _extract_text_from_element (element : element) : string :=
  let texts := [] in
  let texts := append_texts (iter element (qn "w" "t")) texts in
  let texts := append_texts (iter element (qn "w" "delText")) texts in
  PyStr.join texts.

Definition get_accepted_text (paragraph : element) : string :=
  let result :=
    fold_left
      (fun result '(tag_type, element) =>
         match tag_type with
         | run | ins => result ++ [_extract_text_from_element element]
         | del => result
         end)
      (_iter_paragraph_content paragraph) [] in
  PyStr.join result.

Definition get_revisions (paragraph : element) : list (Revision datetime) :=
  fold_left
    (fun revisions '(tag_type, element) =>
       match tag_type with
       | ins | del =>
           let author := get_default element (qn "w" "author") "Unknown" in
           let date_str := get element (qn "w" "date") in
           let date :=
             match date_str with
             | Some s =>
                 if PyStr.truthy s
                 then fromisoformat (PyStr.replace_char "Z" "+00:00" s)
                 else None
             | None => None
             end in
           let text := _extract_text_from_element element in
           if PyStr.truthy text
           then revisions ++ [mkRevision tag_type text author date]
           else revisions
       | run => revisions
       end)
    (_iter_paragraph_content paragraph) [].

Definition _create_run_with_text (text : string) : element :=
  let run := OxmlElement "w" "r" in
  let t_elem := OxmlElement "w" "t" in
  let t_elem := set_text t_elem text in
  let t_elem := set t_elem (QName XML_NS "space") "preserve" in
  append run t_elem.

Definition _create_del_run_with_text (text : string) : element :=
  let run := OxmlElement "w" "r" in
  let del_text := OxmlElement "w" "delText" in
  let del_text := set_text del_text text in
  let del_text := set del_text (QName XML_NS "space") "preserve" in
  append run del_text.

(** The block that [_split_and_insert] and [_split_for_deletion] repeat for
    each piece they keep: a [w:ins] with the attributes of the original
    around a new run when the original is an insertion, a new run
    otherwise. *)
Definition rebuild_piece (tag : string) (original : element) (piece : string)
  : element :=
  if (tag =? "ins")%string then
    let elem := OxmlElement "w" "ins" in
    let elem :=
      fold_left
        (fun elem '(attr, _) =>
           match get original attr with
           | Some v => set elem attr v
           | None => elem
           end)
        (el_attrib original) elem in
    append elem (_create_run_with_text piece)
  else _create_run_with_text piece.

(** [target] is the child of the parent at [target_index], which is what
    [list(parent).index(target)] finds. *)
Definition _split_and_insert (parent : list element) (target_index : nat)
    (target new_element : element) (offset : Z) : list element :=
  let text := _extract_text_from_element target in
  let before_text := PyStr.slice_to text offset in
  let after_text := PyStr.slice_from text offset in
  let tag := localname (el_tag target) in
  let parent := list_remove target_index parent in
  let '(parent, target_index) :=
    if PyStr.truthy before_text then
      let before_elem := rebuild_piece tag target before_text in
      (list_insert target_index before_elem parent, S target_index)
    else (parent, target_index) in
  let parent := list_insert target_index new_element parent in
  let target_index := S target_index in
  if PyStr.truthy after_text then
    let after_elem := rebuild_piece tag target after_text in
    list_insert target_index after_elem parent
  else parent.

(** The loop of [_insert_at_position] over [list(paragraph._element)]:
    [children] is what is left to visit, [index] the place of its head
    among [parent], the children of the paragraph. *)
Fixpoint _insert_at_position_loop (parent children : list element)
    (index : nat) (current_pos : Z) (new_element : element) (position : Z)
  : list element :=
  match children with
  | [] => parent ++ [new_element]
  | child :: rest =>
      let tag := localname (el_tag child) in
      if ((tag =? "r") || (tag =? "ins"))%string then
        let text := _extract_text_from_element child in
        let text_len := PyStr.len text in
        if current_pos + text_len >? position then
          let offset_in_element := position - current_pos in
          _split_and_insert parent index child new_element offset_in_element
        else
          _insert_at_position_loop parent rest (S index)
            (current_pos + text_len) new_element position
      else if (tag =? "del")%string then
        (* continue: deleted text is not counted *)
        _insert_at_position_loop parent rest (S index) current_pos
          new_element position
      else
        _insert_at_position_loop parent rest (S index) current_pos
          new_element position
  end.

Definition _insert_at_position (new_element : element) (position : Z)
  : M unit :=
  paragraph <- read_paragraph ;;
  let children := iterchildren paragraph in
  write_children
    (_insert_at_position_loop children children 0 0 new_element position).

(** [insert_with_tracking(paragraph, text, position, author, date)]; the
    defaults are [position = -1], [author = "Agent"] and [date = None]. *)
Definition insert_with_tracking (text : string) (position : Z)
    (author : string) (date : option datetime) : M unit :=
  date <- default_date date ;;
  let ins_elem := OxmlElement "w" "ins" in
  let ins_elem := set ins_elem (qn "w" "author") author in
  let ins_elem := set ins_elem (qn "w" "date") (isoformat date) in
  let ins_elem := set ins_elem (qn "w" "id") "0" in
  let run := _create_run_with_text text in
  let ins_elem := append ins_elem run in
  if position =? -1 then
    paragraph <- read_paragraph ;;
    write_children (iterchildren paragraph ++ [ins_elem])
  else _insert_at_position ins_elem position.

Definition _create_deletion_element (text author : string) (date : datetime)
  : element :=
  let del_elem := OxmlElement "w" "del" in
  let del_elem := set del_elem (qn "w" "author") author in
  let del_elem := set del_elem (qn "w" "date") (isoformat date) in
  let del_elem := set del_elem (qn "w" "id") "0" in
  append del_elem (_create_del_run_with_text text).

Definition _split_for_deletion (text : string) (elem_start del_start del_end : Z)
    (author : string) (date : datetime) (tag : string) (original : element)
  : list element :=
  let result := [] in
  let local_del_start := Z.max 0 (del_start - elem_start) in
  let local_del_end := Z.min (PyStr.len text) (del_end - elem_start) in
  let before := PyStr.slice_to text local_del_start in
  let deleted := PyStr.slice text (Some local_del_start) (Some local_del_end) in
  let after := PyStr.slice_from text local_del_end in
  let result :=
    if PyStr.truthy before
    then result ++ [rebuild_piece tag original before] else result in
  let result :=
    if PyStr.truthy deleted
    then result ++ [_create_deletion_element deleted author date] else result in
  let result :=
    if PyStr.truthy after
    then result ++ [rebuild_piece tag original after] else result in
  result.

(** The first loop of [_mark_range_as_deleted]. *)
Fixpoint _mark_range_loop (children : list element) (current_pos : Z)
    (new_children : list element) (start end_ : Z) (author : string)
    (date : datetime) : list element :=
  match children with
  | [] => new_children
  | child :: rest =>
      let tag := localname (el_tag child) in
      if (tag =? "del")%string then
        _mark_range_loop rest current_pos (new_children ++ [child])
          start end_ author date
      else if negb ((tag =? "r") || (tag =? "ins"))%string then
        _mark_range_loop rest current_pos (new_children ++ [child])
          start end_ author date
      else
        let text := _extract_text_from_element child in
        let text_len := PyStr.len text in
        let elem_start := current_pos in
        let elem_end := current_pos + text_len in
        let new_children :=
          if (elem_end <=? start) || (elem_start >=? end_) then
            new_children ++ [child]
          else if (elem_start >=? start) && (elem_end <=? end_) then
            new_children ++ [_create_deletion_element text author date]
          else
            new_children ++
              _split_for_deletion text elem_start start end_ author date tag child in
        _mark_range_loop rest (current_pos + text_len) new_children
          start end_ author date
  end.

(** The two loops that end [_mark_range_as_deleted]: every child is taken
    out of the paragraph (each is the first one left when its turn comes),
    then the new children are appended one by one. *)
Definition replace_children (old new_children : list element) : list element :=
  let emptied := fold_left (fun cs _ => list_remove 0 cs) old old in
  fold_left (fun cs child => cs ++ [child]) new_children emptied.

Definition _mark_range_as_deleted (start end_ : Z) (author : string)
    (date : datetime) : M unit :=
  paragraph <- read_paragraph ;;
  let current_pos := 0 in
  let children := iterchildren paragraph in
  let new_children :=
    _mark_range_loop children current_pos [] start end_ author date in
  write_children (replace_children children new_children).

(** [delete_with_tracking(paragraph, start_offset, end_offset, author,
    date)]; the defaults are [author = "Agent"] and [date = None]. *)
Definition delete_with_tracking (start_offset end_offset : Z)
    (author : string) (date : option datetime) : M unit :=
  date <- default_date date ;;
  if start_offset >=? end_offset then ret tt
  else _mark_range_as_deleted start_offset end_offset author date.

(** [replace_with_tracking(paragraph, old_text, new_text, author, date)] *)
Definition replace_with_tracking (old_text new_text author : string)
    (date : option datetime) : M bool :=
  date <- default_date date ;;
  paragraph <- read_paragraph ;;
  let accepted := get_accepted_text paragraph in
  let pos := PyStr.find accepted old_text in
  if pos =? -1 then ret false
  else
    delete_with_tracking pos (pos + PyStr.len old_text) author (Some date) ;;
    insert_with_tracking new_text pos author (Some date) ;;
    ret true.

End Revisions.

Arguments datetime_now {datetime}.
Arguments default_date {datetime}.
Arguments get_revisions {datetime}.
Arguments insert_with_tracking {datetime}.
Arguments _create_deletion_element {datetime}.
Arguments _split_for_deletion {datetime}.
Arguments _mark_range_loop {datetime}.
Arguments _mark_range_as_deleted {datetime}.
Arguments delete_with_tracking {datetime}.
Arguments replace_with_tracking {datetime}.

(** ** The segment view of a paragraph

    The vocabulary the properties are stated in: a child of the paragraph is
    a segment when it is a run, an insertion or a deletion; the accepted text
    reads the runs and the insertions, the raw text reads every segment. *)

Definition tag_is (name : string) (e : element) : bool :=
  (localname (el_tag e) =? name)%string.

(** A run or an insertion: a segment whose text counts in accepted offsets. *)
Definition is_accepted_segment (e : element) : bool :=
  tag_is "r" e || tag_is "ins" e.

Definition is_deleted_segment (e : element) : bool := tag_is "del" e.

Definition is_segment (e : element) : bool :=
  is_accepted_segment e || is_deleted_segment e.

(** An insertion or a deletion: a segment that records a revision. *)
Definition is_revision_segment (e : element) : bool :=
  tag_is "ins" e || tag_is "del" e.

Definition segment_text (e : element) : string := _extract_text_from_element e.

(** The texts of the runs and insertions, in document order, concatenated. *)
Definition accepted_text_of (children : list element) : string :=
  PyStr.join (map segment_text (filter is_accepted_segment children)).

(** The texts of all segments, deleted ones too. *)
Definition raw_text_of (children : list element) : string :=
  PyStr.join (map segment_text (filter is_segment children)).

Definition accepted_length (children : list element) : Z :=
  PyStr.len (accepted_text_of children).

Definition children_of (w : world) : list element :=
  el_children (paragraph_element w).

Definition accepted_text (w : world) : string := accepted_text_of (children_of w).
Definition raw_text (w : world) : string := raw_text_of (children_of w).





(** The date a call records: the one it is given, or the clock's. *)
Definition recorded_date {datetime : Type} (wall_clock : nat -> datetime)
    (date : option datetime) (w : world) : datetime :=
  match date with
  | Some d => d
  | None => wall_clock (clock_reads w)
  end.

(** The state once the call has settled its date. *)
Definition after_date {datetime : Type} (date : option datetime) (w : world)
  : world :=
  match date with
  | Some _ => w
  | None => World (paragraph_element w) (S (clock_reads w))
  end.


(** What one turn of the loop of [_mark_range_as_deleted] leaves in place of
    [child], met when the cursor is at [current_pos]. *)
Definition marked_child {datetime : Type} (isoformat : datetime -> string)
    (start end_ : Z) (author : string) (date : datetime) (current_pos : Z)
    (child : element) : list element :=
  if is_accepted_segment child then
    let text := segment_text child in
    let elem_end := current_pos + PyStr.len text in
    if (elem_end <=? start) || (current_pos >=? end_) then [child]
    else if (current_pos >=? start) && (elem_end <=? end_) then
      [_create_deletion_element isoformat text author date]
    else
      _split_for_deletion isoformat text current_pos start end_ author date
        (localname (el_tag child)) child
  else [child].

(** How far a child moves the cursor of accepted offsets. *)
Definition advance (child : element) : Z :=
  if is_accepted_segment child then PyStr.len (segment_text child) else 0.

(** The [w:ins] element that [insert_with_tracking] builds before it looks
    for its place. *)
Definition inserted_element {datetime : Type} (isoformat : datetime -> string)
    (text author : string) (date : datetime) : element :=
  let ins_elem := OxmlElement "w" "ins" in
  let ins_elem := set ins_elem (qn "w" "author") author in
  let ins_elem := set ins_elem (qn "w" "date") (isoformat date) in
  let ins_elem := set ins_elem (qn "w" "id") "0" in
  append ins_elem (_create_run_with_text text).

(** Calls of the three editing functions, and running a sequence of them. *)
Inductive edit (datetime : Type) :=
| Insert (text : string) (position : Z) (author : string) (date : option datetime)
| Delete (start_offset end_offset : Z) (author : string) (date : option datetime)
| Replace (old_text new_text author : string) (date : option datetime).

Arguments Insert {datetime}.
Arguments Delete {datetime}.
Arguments Replace {datetime}.

Definition apply_edit {datetime : Type} (isoformat : datetime -> string)
    (wall_clock : nat -> datetime) (e : edit datetime) (w : world) : world :=
  match e with
  | Insert text position author date =>
      exec (insert_with_tracking isoformat wall_clock text position author date) w
  | Delete s e author date =>
      exec (delete_with_tracking isoformat wall_clock s e author date) w
  | Replace old_text new_text author date =>
      exec (replace_with_tracking isoformat wall_clock old_text new_text author date) w
  end.

Definition apply_edits {datetime : Type} (isoformat : datetime -> string)
    (wall_clock : nat -> datetime) (edits : list (edit datetime)) (w : world)
  : world :=
  fold_left (fun w e => apply_edit isoformat wall_clock e w) edits w.

(** What [get_revisions] is to report for a revision segment. *)
Definition reports {datetime : Type} (fromisoformat : string -> option datetime)
    (e : element) (r : Revision datetime) : Prop :=
  (tag_is "ins" e = true -> rev_type r = ins) /\
  (tag_is "ins" e = false -> rev_type r = del) /\
  rev_text r = segment_text e /\
  (forall a, get e (qn "w" "author") = Some a -> rev_author r = a) /\
  (get e (qn "w" "author") = None -> rev_author r = "Unknown") /\
  (get e (qn "w" "date") = None -> rev_date r = None) /\
  (forall s, get e (qn "w" "date") = Some s ->
             fromisoformat (PyStr.replace_char "Z" "+00:00" s) = None ->
             rev_date r = None) /\
  (forall s, get e (qn "w" "date") = Some s -> s <> "" ->
             rev_date r = fromisoformat (PyStr.replace_char "Z" "+00:00" s)).

(** ** A concrete clock and a few paragraphs, for the examples *)

Module Example.

(** Dates are numbered, and printed as minutes of one morning. *)
Definition isoformat (d : nat) : string :=
  match d with
  | O => "2024-01-15T10:30:00"
  | S O => "2024-01-15T10:31:00"
  | _ => "2024-01-15T10:32:00"
  end.

Definition fromisoformat (s : string) : option nat :=
  if (s =? "2024-01-15T10:30:00")%string then Some 0%nat
  else if (s =? "2024-01-15T10:31:00")%string then Some 1%nat
  else if (s =? "2024-01-15T10:32:00")%string then Some 2%nat
  else None.

Definition wall_clock (n : nat) : nat := n.

Definition paragraph_of (children : list element) : world :=
  World (Element (qn "w" "p") [] None children) 0.

(** [doc.add_paragraph("Hello world")] *)
Definition hello_world : world :=
  paragraph_of [_create_run_with_text "Hello world"].

Definition delete := @delete_with_tracking nat isoformat wall_clock.
Definition replace := @replace_with_tracking nat isoformat wall_clock.



(** An insertion without author whose date does not parse, a deletion by
    Bob, an insertion without text and a plain run. *)
Definition revised : element :=
  Element (qn "w" "p") [] None
    [Element (qn "w" "ins") [(qn "w" "date", "yesterday")] None
       [_create_run_with_text "new"];
     _create_deletion_element isoformat "old" "Bob" 1%nat;
     inserted_element isoformat "" "Ann" 0%nat;
     _create_run_with_text "plain"].

End Example.

(** * Properties *)

(** ** Facts on Python strings *)

Module PyStrFacts.

Import PyStr.

Lemma app_empty_r (s : string) : s ++ "" = s.
Proof. induction s as [|c s IH]; simpl; [reflexivity | now rewrite IH]. Qed.


Lemma app_assoc (a b c : string) : (a ++ b) ++ c = a ++ b ++ c.
Proof. induction a as [|x a IH]; simpl; [reflexivity | now rewrite IH]. Qed.

Lemma length_app (a b : string) :
  String.length (a ++ b) = (String.length a + String.length b)%nat.
Proof. induction a as [|x a IH]; simpl; [reflexivity | now rewrite IH]. Qed.

Lemma len_app (a b : string) : len (a ++ b) = len a + len b.
Proof. unfold len. rewrite length_app. lia. Qed.

Lemma len_nonneg (s : string) : 0 <= len s.
Proof. unfold len. lia. Qed.


















Lemma join_cons (x : string) (xs : list string) :
  join (x :: xs) = x ++ join xs.
Proof.
  unfold join. destruct xs as [|y ys]; simpl.
  - now rewrite app_empty_r.
  - reflexivity.
Qed.



End PyStrFacts.

Local Open Scope list_scope.

(** ** Texts and kinds of the elements the module builds *)

Section BuiltElements.

Context {datetime : Type} (isoformat : datetime -> string).

Lemma extract_run (t : string) :
  _extract_text_from_element (_create_run_with_text t) = t.
Proof. destruct t; reflexivity. Qed.


Lemma deletion_attrib (t author : string) (d : datetime) :
  el_attrib (_create_deletion_element isoformat t author d) =
    [(qn "w" "author", author); (qn "w" "date", isoformat d); (qn "w" "id", "0")].
Proof. reflexivity. Qed.

Lemma deletion_tag (t author : string) (d : datetime) :
  el_tag (_create_deletion_element isoformat t author d) = qn "w" "del".
Proof. reflexivity. Qed.

(** Copying attributes leaves tag, text and children alone. *)
Lemma copy_attributes_frame (original : element) (l : list (qname * string))
    (e : element) :
  let e' :=
    fold_left
      (fun elem '(attr, _) =>
         match get original attr with
         | Some v => set elem attr v
         | None => elem
         end) l e in
  el_tag e' = el_tag e /\ el_text e' = el_text e /\
  el_children e' = el_children e.
Proof.
  revert e. induction l as [|[k v] l IH]; intros e; simpl.
  - repeat split.
  - destruct (IH (match get original k with
                  | Some v0 => set e k v0
                  | None => e
                  end)) as (Ht & Hx & Hc).
    rewrite Ht, Hx, Hc. destruct (get original k); repeat split.
Qed.

Lemma extract_rebuild (tag : string) (original : element) (piece : string) :
  _extract_text_from_element (rebuild_piece tag original piece) = piece.
Proof.
  unfold rebuild_piece. destruct (tag =? "ins")%string.
  - destruct (copy_attributes_frame original (el_attrib original)
                (OxmlElement "w" "ins")) as (Ht & Hx & Hc).
    cbv zeta in Ht, Hx, Hc.
    destruct (fold_left _ (el_attrib original) (OxmlElement "w" "ins"))
      as [t a x cs].
    simpl in Ht, Hx, Hc. subst t x cs.
    destruct piece; reflexivity.
  - apply extract_run.
Qed.

Lemma rebuild_localname (tag : string) (original : element) (piece : string) :
  localname (el_tag (rebuild_piece tag original piece)) =
    if (tag =? "ins")%string then "ins" else "r".
Proof.
  unfold rebuild_piece. destruct (tag =? "ins")%string; [|reflexivity].
  destruct (copy_attributes_frame original (el_attrib original)
              (OxmlElement "w" "ins")) as (Ht & _).
  cbv zeta in Ht. unfold append. simpl. now rewrite Ht.
Qed.




End BuiltElements.

(** ** Accepted and raw text of a list of children *)

Section Texts.

Import PyStr PyStrFacts.


Lemma accepted_not_deleted (e : element) :
  is_accepted_segment e = true -> is_deleted_segment e = false.
Proof.
  unfold is_accepted_segment, is_deleted_segment, tag_is.
  destruct (String.eqb_spec (localname (el_tag e)) "r") as [->|_];
    [reflexivity|].
  destruct (String.eqb_spec (localname (el_tag e)) "ins") as [->|_];
    [reflexivity | discriminate].
Qed.

Lemma deleted_not_accepted (e : element) :
  is_deleted_segment e = true -> is_accepted_segment e = false.
Proof.
  intros H. destruct (is_accepted_segment e) eqn:E; [|reflexivity].
  apply accepted_not_deleted in E. congruence.
Qed.


Lemma accepted_text_of_cons (e : element) (cs : list element) :
  accepted_text_of (e :: cs) =
    ((if is_accepted_segment e then segment_text e else "")
       ++ accepted_text_of cs)%string.
Proof.
  unfold accepted_text_of. simpl.
  destruct (is_accepted_segment e); [|reflexivity].
  simpl map. apply join_cons.
Qed.





Lemma accepted_length_nonneg (cs : list element) : 0 <= accepted_length cs.
Proof. apply len_nonneg. Qed.

Lemma accepted_length_cons (e : element) (cs : list element) :
  accepted_length (e :: cs) =
    (if is_accepted_segment e then len (segment_text e) else 0)
    + accepted_length cs.
Proof.
  unfold accepted_length. rewrite accepted_text_of_cons, len_app.
  now destruct (is_accepted_segment e).
Qed.



(** The loop of [get_accepted_text], for any list built so far. *)
Lemma accepted_loop (cs : list element) (acc : list string) :
  fold_left
    (fun result '(tag_type, element) =>
       match tag_type with
       | run | ins => result ++ [_extract_text_from_element element]
       | del => result
       end)
    (_iter_paragraph_content_of cs) acc
  = acc ++ map segment_text (filter is_accepted_segment cs).
Proof.
  revert acc. induction cs as [|e cs IH]; intros acc; simpl.
  - now rewrite app_nil_r.
  - unfold is_accepted_segment, tag_is.
    destruct (localname (el_tag e) =? "r")%string; simpl.
    + rewrite IH, <- List.app_assoc. reflexivity.
    + destruct (localname (el_tag e) =? "ins")%string; simpl.
      * rewrite IH, <- List.app_assoc. reflexivity.
      * destruct (localname (el_tag e) =? "del")%string; simpl; apply IH.
Qed.

Lemma get_accepted_text_children (p : element) :
  get_accepted_text p = accepted_text_of (el_children p).
Proof.
  unfold get_accepted_text, _iter_paragraph_content, iterchildren.
  now rewrite accepted_loop.
Qed.

End Texts.

(** ** Cutting and inserting in a string *)

Section CutInsert.

Import PyStr PyStrFacts.












End CutInsert.

(** ** The deletion loop *)

Section Deletion.

Import PyStr PyStrFacts.

Context {datetime : Type} (isoformat : datetime -> string).
Variables (start end_ : Z) (author : string) (date : datetime).

Local Abbreviation loop cs cp acc :=
  (_mark_range_loop isoformat cs cp acc start end_ author date).
Local Abbreviation marked cp c :=
  (marked_child isoformat start end_ author date cp c).
Local Abbreviation deletion t := (_create_deletion_element isoformat t author date).

Lemma del_tag_not_accepted (e : element) :
  (localname (el_tag e) =? "del")%string = true ->
  is_accepted_segment e = false.
Proof. intros H. now apply deleted_not_accepted. Qed.

Lemma mark_loop_acc (cs : list element) :
  forall (cp : Z) (acc : list element), loop cs cp acc = acc ++ loop cs cp [].
Proof.
  induction cs as [|c cs IH]; intros cp acc; simpl.
  - now rewrite app_nil_r.
  - destruct (localname (el_tag c) =? "del")%string.
    { rewrite (IH _ (acc ++ _)), (IH _ [c]). now rewrite <- List.app_assoc. }
    destruct (negb _).
    { rewrite (IH _ (acc ++ _)), (IH _ [c]). now rewrite <- List.app_assoc. }
    destruct (_ || _).
    { rewrite (IH _ (acc ++ _)), (IH _ [c]). now rewrite <- List.app_assoc. }
    destruct (_ && _).
    { rewrite (IH _ (acc ++ _)), (IH _ [_]). now rewrite <- List.app_assoc. }
    rewrite (IH _ (acc ++ _)), (IH _ (_split_for_deletion _ _ _ _ _ _ _ _ _)).
    now rewrite <- List.app_assoc.
Qed.

Lemma mark_loop_cons (c : element) (cs : list element) (cp : Z) :
  loop (c :: cs) cp [] = marked cp c ++ loop cs (cp + advance c) [].
Proof.
  simpl. unfold marked_child, advance.
  destruct (localname (el_tag c) =? "del")%string eqn:Hdel.
  { rewrite (del_tag_not_accepted c Hdel), Z.add_0_r. apply mark_loop_acc. }
  change ((localname (el_tag c) =? "r")%string
          || (localname (el_tag c) =? "ins")%string)
    with (is_accepted_segment c).
  destruct (is_accepted_segment c); simpl negb; cbv iota.
  - unfold segment_text.
    destruct (_ || _); [apply mark_loop_acc|].
    destruct (_ && _); apply mark_loop_acc.
  - rewrite Z.add_0_r. apply mark_loop_acc.
Qed.


Lemma advance_nonneg (c : element) : 0 <= advance c.
Proof. unfold advance. destruct (is_accepted_segment c); [apply len_nonneg | lia]. Qed.

Lemma accepted_length_cons_advance (c : element) (cs : list element) :
  accepted_length (c :: cs) = advance c + accepted_length cs.
Proof. apply accepted_length_cons. Qed.







End Deletion.

(** ** The insertion loop *)

Section Insertion.

Import PyStr PyStrFacts.

Variables (new_element : element) (position : Z).

Local Abbreviation loop parent cs index cp :=
  (_insert_at_position_loop parent cs index cp new_element position).










End Insertion.

(** ** Searching a string *)

Section Search.

Import PyStr PyStrFacts.








End Search.

(** ** The calls, run on a paragraph *)

Section Calls.

Import PyStr PyStrFacts.

Context {datetime : Type}.
Variable isoformat : datetime -> string.
Variable wall_clock : nat -> datetime.

Local Abbreviation insert := (insert_with_tracking isoformat wall_clock).
Local Abbreviation delete := (delete_with_tracking isoformat wall_clock).
Local Abbreviation replace := (replace_with_tracking isoformat wall_clock).





Lemma emptied_children (old : list element) :
  forall cs : list element,
    (List.length cs <= List.length old)%nat ->
    fold_left (fun cs _ => list_remove 0 cs) old cs = [].
Proof.
  induction old as [|x old IH]; intros cs Hlen; simpl in *.
  - destruct cs; [reflexivity | simpl in Hlen; lia].
  - apply IH. unfold list_remove. destruct cs; simpl in *; lia.
Qed.

Lemma appended_children (new_children : list element) :
  forall cs : list element,
    fold_left (fun cs child => cs ++ [child]) new_children cs =
      cs ++ new_children.
Proof.
  induction new_children as [|x l IH]; intros cs; simpl.
  - now rewrite app_nil_r.
  - rewrite IH. now rewrite <- List.app_assoc.
Qed.

Lemma replace_children_new (old new_children : list element) :
  replace_children old new_children = new_children.
Proof.
  unfold replace_children.
  rewrite emptied_children by lia. now rewrite appended_children.
Qed.

Lemma delete_run (start_offset end_offset : Z) (author : string)
    (date : option datetime) (w : world) :
  delete start_offset end_offset author date w =
    (tt,
     World
       (if start_offset >=? end_offset then paragraph_element w
        else with_children (paragraph_element w)
               (_mark_range_loop isoformat (children_of w) 0 []
                  start_offset end_offset author
                  (recorded_date wall_clock date w)))
       (clock_reads (after_date date w))).
Proof.
  unfold delete_with_tracking, _mark_range_as_deleted, default_date,
    datetime_now, read_paragraph, write_children, bind, ret, children_of,
    iterchildren, recorded_date, after_date.
  destruct date; cbn [fst snd paragraph_element clock_reads];
    destruct (start_offset >=? end_offset);
    rewrite ?replace_children_new; try reflexivity.
  now destruct w.
Qed.


Lemma filter_accepted_without_deleted (cs : list element) :
  filter is_accepted_segment
    (filter (fun e => negb (is_deleted_segment e)) cs)
  = filter is_accepted_segment cs.
Proof.
  induction cs as [|c cs IH]; simpl; [reflexivity|].
  destruct (is_deleted_segment c) eqn:Hd; simpl.
  - now rewrite (deleted_not_accepted c Hd).
  - now rewrite IH.
Qed.



(** *** Reading the accepted text *)

(** C1. After any sequence of [insert_with_tracking],
    [delete_with_tracking] and [replace_with_tracking] calls, run from any
    paragraph, [get_accepted_text] is the concatenation, in document
    order, of the texts of the [r] and [ins] children; the [del] children
    contribute nothing: the result is the same with them taken out. *)
Theorem accepted_text_after_edits (edits : list (edit datetime)) (w : world) :
  let w' := apply_edits isoformat wall_clock edits w in
  get_accepted_text (paragraph_element w') =
    PyStr.join (map segment_text (filter is_accepted_segment (children_of w')))
  /\ get_accepted_text (paragraph_element w') =
       accepted_text_of
         (filter (fun e => negb (is_deleted_segment e)) (children_of w')).
Proof.
  intros w'. rewrite get_accepted_text_children. split; [reflexivity|].
  unfold accepted_text_of, children_of.
  now rewrite filter_accepted_without_deleted.
Qed.

(** *** Inserting *)



(** *** Deleting *)


Lemma marked_outside (s e : Z) (author : string) (d : datetime) (cp : Z)
    (c : element) :
  is_accepted_segment c = false
  \/ cp + len (segment_text c) <= s \/ e <= cp ->
  marked_child isoformat s e author d cp c = [c].
Proof.
  intros H. unfold marked_child.
  destruct (is_accepted_segment c); [|reflexivity].
  destruct H as [H|H]; [discriminate|]. cbv zeta.
  destruct (Z.leb_spec (cp + len (segment_text c)) s) as [H1|H1];
    [reflexivity|].
  destruct (Z.geb_spec cp e) as [H2|H2]; [reflexivity | lia].
Qed.




(** *** Inserting, then deleting what was inserted *)



(** *** Inserting where deletions sit on the boundary *)



(** *** Replacing *)



End Calls.

(** ** Listing the revisions *)

Section RevisionList.

Import PyStr PyStrFacts.

Context {datetime : Type}.
Variable fromisoformat : string -> option datetime.

(** The revision that the loop of [get_revisions] makes of an element it
    takes for a [kind]. *)
Lemma made_revision_reports (kind : tag_type) (e : element) :
  (tag_is "ins" e = true -> kind = ins) ->
  (tag_is "ins" e = false -> kind = del) ->
  reports fromisoformat e
    (mkRevision kind (_extract_text_from_element e)
       (get_default e (qn "w" "author") "Unknown")
       match get e (qn "w" "date") with
       | Some s =>
           if truthy s then fromisoformat (replace_char "Z" "+00:00" s)
           else None
       | None => None
       end).
Proof.
  intros Hins Hdel. unfold reports, get_default.
  cbn [rev_type rev_text rev_author rev_date].
  repeat split; try assumption.
  - intros a Ha. now rewrite Ha.
  - intros Ha. now rewrite Ha.
  - intros Hd. now rewrite Hd.
  - intros s Hs Hp. rewrite Hs. now destruct (truthy s).
  - intros s Hs Hne. rewrite Hs. destruct s; [congruence | reflexivity].
Qed.

(** C9. [get_revisions] returns one [Revision] for each [ins] or [del]
    child whose text is not empty, in the order of the children, and
    nothing else.  Each has the kind and the text of its element, its
    author attribute or ["Unknown"] without one, and its date attribute
    read as an ISO date; a date attribute that is missing or that does not
    parse gives [date = None], and no error. *)
Theorem get_revisions_reports_segments (paragraph : element) :
  Forall2 (reports fromisoformat)
    (filter (fun e => is_revision_segment e && truthy (segment_text e))
       (el_children paragraph))
    (get_revisions fromisoformat paragraph).
Proof.
  unfold get_revisions, _iter_paragraph_content, iterchildren.
  match goal with |- context [fold_left ?f _ _] => set (step := f) end.
  assert (Hrun : forall acc e, step acc (run, e) = acc) by reflexivity.
  assert (Hrev : forall acc kind e,
             kind <> run ->
             (tag_is "ins" e = true -> kind = ins) ->
             (tag_is "ins" e = false -> kind = del) ->
             exists r,
               reports fromisoformat e r /\
               step acc (kind, e) =
                 if truthy (segment_text e) then acc ++ [r] else acc).
  { intros acc kind e Hk Hins Hdel. eexists. split.
    - apply (made_revision_reports kind e Hins Hdel).
    - destruct kind; [congruence | reflexivity | reflexivity]. }
  clearbody step.
  enough (Hloop : forall cs acc, exists rs,
             fold_left step (_iter_paragraph_content_of cs) acc = acc ++ rs
             /\ Forall2 (reports fromisoformat)
                  (filter
                     (fun e => is_revision_segment e && truthy (segment_text e))
                     cs) rs).
  { destruct (Hloop (el_children paragraph) []) as (rs & Heq & Hrs).
    rewrite Heq. exact Hrs. }
  induction cs as [|e cs IH]; intros acc.
  - exists []. split; [simpl; now rewrite app_nil_r | constructor].
  - cbn [_iter_paragraph_content_of filter].
    unfold is_revision_segment at 1, tag_is at 1 2.
    destruct (String.eqb_spec (localname (el_tag e)) "r") as [Hr|Hr].
    { rewrite Hr. cbn [String.eqb Ascii.eqb Bool.eqb orb andb fold_left].
      rewrite Hrun. apply IH. }
    destruct (localname (el_tag e) =? "ins")%string eqn:Hins.
    { cbn [orb andb fold_left].
      destruct (Hrev acc ins e) as (r & Hr1 & Hr2);
        [discriminate | reflexivity | unfold tag_is; congruence |].
      rewrite Hr2. destruct (truthy (segment_text e)); [|apply IH].
      destruct (IH (acc ++ [r])) as (rs & Heq & Hrs).
      exists (r :: rs). split.
      - rewrite Heq, <- List.app_assoc. reflexivity.
      - now constructor. }
    destruct (localname (el_tag e) =? "del")%string eqn:Hdel.
    { cbn [orb andb fold_left].
      destruct (Hrev acc del e) as (r & Hr1 & Hr2);
        [discriminate | unfold tag_is; congruence | reflexivity |].
      rewrite Hr2. destruct (truthy (segment_text e)); [|apply IH].
      destruct (IH (acc ++ [r])) as (rs & Heq & Hrs).
      exists (r :: rs). split.
      - rewrite Heq, <- List.app_assoc. reflexivity.
      - now constructor. }
    cbn [orb andb]. apply IH.
Qed.

End RevisionList.

(** ** The properties on the example paragraphs *)

Section Evaluated.

Import Example.












(** The revisions of [revised]: the insertion without text and the run
    give none. *)
Lemma get_revisions_of_revised :
  get_revisions fromisoformat revised =
    [mkRevision ins "new" "Unknown" None; mkRevision del "old" "Bob" (Some 1%nat)].
Proof. vm_compute. reflexivity. Qed.

(** The scenarios on ["Hello world"]: deleting ["world"], and replacing it. *)
Lemma delete_word_of_hello_world :
  let w' := exec (delete 6 11 "Bob" None) hello_world in
  accepted_text w' = "Hello " /\ raw_text w' = "Hello world"
  /\ get_revisions fromisoformat (paragraph_element w') =
       [mkRevision del "world" "Bob" (Some 0%nat)].
Proof. vm_compute. repeat split. Qed.

Lemma replace_word_of_hello_world :
  let w' := exec (replace "world" "universe" "Cid" None) hello_world in
  accepted_text w' = "Hello universe"
  /\ get_revisions fromisoformat (paragraph_element w') =
       [mkRevision del "world" "Cid" (Some 0%nat);
        mkRevision ins "universe" "Cid" (Some 0%nat)].
Proof. vm_compute. repeat split. Qed.

End Evaluated.


(** * Further properties of the calls *)

Section Further.

Import PyStr PyStrFacts.

Context {datetime : Type}.
Variable isoformat : datetime -> string.
Variable wall_clock : nat -> datetime.

Local Abbreviation insert := (insert_with_tracking isoformat wall_clock).
Local Abbreviation delete := (delete_with_tracking isoformat wall_clock).
Local Abbreviation replace := (replace_with_tracking isoformat wall_clock).

(** ** The accepted text after a deletion and after an insertion *)


Lemma mark_loop_untouched (s e : Z) (author : string) (d : datetime)
    (cs : list element) :
  forall cp : Z,
    e <= cp \/ cp + accepted_length cs <= s ->
    _mark_range_loop isoformat cs cp [] s e author d = cs.
Proof.
  induction cs as [|c cs IH]; intros cp Hout; [reflexivity|].
  rewrite accepted_length_cons_advance in Hout.
  pose proof (advance_nonneg c) as Hc.
  pose proof (accepted_length_nonneg cs) as Hcs.
  rewrite mark_loop_cons, marked_outside, IH.
  - reflexivity.
  - destruct Hout as [H|H]; [left | right]; lia.
  - unfold advance in *. destruct (is_accepted_segment c); [right | now left].
    destruct Hout as [H|H]; [right | left]; lia.
Qed.

Lemma with_same_children (p : element) : with_children p (el_children p) = p.
Proof. now destruct p. Qed.

(** X2. [delete_with_tracking] leaves the paragraph element as it was when
    the range is empty or inverted ([s >= e]), when it ends at or before
    offset 0, and when it starts at or beyond the end of the accepted
    text. *)
Theorem delete_outside_accepted_text_is_identity (s e : Z) (author : string)
    (date : option datetime) (w : world) :
  e <= s \/ e <= 0 \/ accepted_length (children_of w) <= s ->
  paragraph_element (exec (delete s e author date) w) = paragraph_element w.
Proof.
  intros Hout. unfold exec. rewrite delete_run. cbn [snd paragraph_element].
  destruct (Z.geb_spec s e) as [_|Hlt]; [reflexivity|].
  rewrite mark_loop_untouched by lia. apply with_same_children.
Qed.


(** ** The shape of the children after an insertion *)




(** ** Negative positions *)



(** ** What a replacement leaves as accepted text *)







(** ** The attribution of the pieces of a split insertion *)

Lemma qname_eqb_eq (a b : qname) : qname_eqb a b = true <-> a = b.
Proof.
  destruct a as [na la], b as [nb lb]. unfold qname_eqb. cbn [namespace localname].
  rewrite andb_true_iff, !String.eqb_eq. split.
  - intros [-> ->]. reflexivity.
  - intros H. injection H as -> ->. now split.
Qed.

Lemma assoc_get_set (key k : qname) (v : string) (l : list (qname * string)) :
  assoc_get key (assoc_set k v l) =
    if qname_eqb key k then Some v else assoc_get key l.
Proof.
  induction l as [|[k' v'] l IH]; cbn [assoc_set assoc_get].
  - reflexivity.
  - destruct (qname_eqb k k') eqn:Hkk; cbn [assoc_get].
    + apply qname_eqb_eq in Hkk. subst k'.
      now destruct (qname_eqb key k).
    + destruct (qname_eqb key k') eqn:Hk'.
      * apply qname_eqb_eq in Hk'. subst k'.
        destruct (qname_eqb key k) eqn:Hk; [|reflexivity].
        apply qname_eqb_eq in Hk. subst k.
        assert (qname_eqb key key = true) by now apply qname_eqb_eq.
        congruence.
      * exact IH.
Qed.

Lemma assoc_get_absent (key : qname) (l : list (qname * string)) :
  existsb (fun kv => qname_eqb key (fst kv)) l = false -> assoc_get key l = None.
Proof.
  induction l as [|[k v] l IH]; cbn [existsb assoc_get fst]; [reflexivity|].
  intros H. apply orb_false_iff in H. destruct H as [-> H]. now apply IH.
Qed.

Lemma get_copied_attributes (original : element) (key : qname)
    (l : list (qname * string)) :
  forall e : element,
    get
      (fold_left
         (fun elem '(attr, _) =>
            match get original attr with
            | Some v => set elem attr v
            | None => elem
            end) l e) key
    = match
        (if existsb (fun kv => qname_eqb key (fst kv)) l
         then get original key else None)
      with
      | Some v => Some v
      | None => get e key
      end.
Proof.
  induction l as [|[k v] l IH]; intros e; cbn [fold_left existsb fst].
  - reflexivity.
  - rewrite IH.
    destruct (existsb (fun kv => qname_eqb key (fst kv)) l) eqn:Hl.
    + rewrite orb_true_r. destruct (get original key) eqn:Hkey; [reflexivity|].
      destruct (get original k) eqn:Hk; [|reflexivity].
      unfold get, set. cbn [el_attrib]. rewrite assoc_get_set.
      destruct (qname_eqb key k) eqn:E; [|reflexivity].
      apply qname_eqb_eq in E. subst k. congruence.
    + rewrite orb_false_r.
      destruct (qname_eqb key k) eqn:E.
      * apply qname_eqb_eq in E. subst k.
        destruct (get original key) eqn:Hk; [|reflexivity].
        unfold get, set. cbn [el_attrib]. rewrite assoc_get_set.
        assert (qname_eqb key key = true) as -> by now apply qname_eqb_eq.
        reflexivity.
      * destruct (get original k); [|reflexivity].
        unfold get, set. cbn [el_attrib]. now rewrite assoc_get_set, E.
Qed.

(** X9. A piece that [_split_and_insert] or [_split_for_deletion] keeps of an
    insertion is again an insertion, its text is the piece, and every
    attribute reads on it as on the original: the author, the date and the
    id of the original insertion are on both halves of a split. *)
Theorem split_piece_keeps_attribution (original : element) (piece : string) :
  tag_is "ins" original = true ->
  let kept := rebuild_piece (localname (el_tag original)) original piece in
  tag_is "ins" kept = true
  /\ segment_text kept = piece
  /\ forall key : qname, get kept key = get original key.
Proof.
  intros Hins kept. unfold tag_is in Hins. split; [|split].
  - unfold tag_is, kept. now rewrite rebuild_localname, Hins.
  - apply extract_rebuild.
  - intros key. unfold kept, rebuild_piece. rewrite Hins.
    unfold get at 1, append. cbn [el_attrib].
    change (assoc_get key (el_attrib ?e)) with (get e key).
    rewrite get_copied_attributes.
    destruct (existsb (fun kv => qname_eqb key (fst kv)) (el_attrib original))
      eqn:Hex.
    + now destruct (get original key).
    + unfold get. now rewrite (assoc_get_absent _ _ Hex).
Qed.

(** ** Which deletions a deletion leaves *)




(** ** A paragraph of one run *)








(** ** The revisions after a call *)

Variable fromisoformat : string -> option datetime.










End Further.

(** ** The located segment *)

Section Located.

Import PyStr PyStrFacts.

Context {datetime : Type}.
Variable isoformat : datetime -> string.
Variable wall_clock : nat -> datetime.

Local Abbreviation insert := (insert_with_tracking isoformat wall_clock).
Local Abbreviation delete := (delete_with_tracking isoformat wall_clock).



End Located.

(** ** The further properties on the example paragraphs *)

Section FurtherEvaluated.

Import Example.


(** A range that starts at the end of ["Hello world"]. *)
Lemma delete_outside_accepted_text_is_identity_witness :
  (20 <= 11 \/ 20 <= 0 \/ accepted_length (children_of hello_world) <= 11)
  /\ paragraph_element (exec (delete 11 20 "Bob" None) hello_world) =
       paragraph_element hello_world.
Proof.
  assert (H : 20 <= 11 \/ 20 <= 0
              \/ accepted_length (children_of hello_world) <= 11)
    by (right; right; vm_compute; discriminate).
  split; [exact H|].
  apply (delete_outside_accepted_text_is_identity isoformat wall_clock 11 20
           "Bob" None hello_world H).
Defined.




(** The half ["X"] of Ann's insertion ["XY"]. *)
Lemma split_piece_keeps_attribution_witness :
  let original := inserted_element isoformat "XY" "Ann" 0%nat in
  let kept := rebuild_piece (localname (el_tag original)) original "X" in
  tag_is "ins" kept = true
  /\ segment_text kept = "X"
  /\ forall key : qname, get kept key = get original key.
Proof.
  apply (split_piece_keeps_attribution
           (inserted_element isoformat "XY" "Ann" 0%nat) "X").
  reflexivity.
Defined.








End FurtherEvaluated.
